(** * A wiki server: routing, page store and handlers

    Shallow embedding of [wiki.go]: the [Page] record, the [validPath]
    regular expression with Go's leftmost-first submatch search, the
    [save]/[loadPage] pair over a file store, the template set built at
    start-up, the three handlers, the [makeHandler] wrapper and the route
    table of [main].

    Go strings are byte sequences; they are modelled as [string] (one
    [ascii] per byte).  The only character class of [validPath] holds
    ASCII letters and digits, and no byte of a multi-byte UTF-8 sequence
    lies in it, so matching byte by byte agrees with matching rune by rune
    for this pattern. *)

From Stdlib Require Import Strings.Ascii Strings.String Strings.Byte ZArith Lia.
From stdpp Require Import base option list strings gmap.

Local Open Scope stdpp_scope.

#[local] Arguments String.append !s1 s2 / : simpl nomatch.

(** ** Strings *)

Module Str.

Fixpoint take (n : nat) (s : string) : string :=
  match n, s with
  | S n', String c s' => String c (take n' s')
  | _, _ => ""
  end.

(** [strings.CutPrefix]: the text after the prefix [p], if [s] has it. *)
Fixpoint cut_prefix (p s : string) : option string :=
  match p, s with
  | "", _ => Some s
  | String a p', String b s' => if decide (a = b) then cut_prefix p' s' else None
  | String _ _, "" => None
  end.

Fixpoint all (p : ascii → bool) (s : string) : bool :=
  match s with
  | "" => true
  | String c s' => p c && all p s'
  end.

Fixpoint mem (c : ascii) (s : string) : bool :=
  match s with
  | "" => false
  | String c' s' => (if decide (c = c') then true else false) || mem c s'
  end.

(** [split sep s]: the pieces of [s] between occurrences of [sep]
    (as [strings.Split] with a one-byte separator). *)
Fixpoint split (sep : ascii) (s : string) : list string :=
  match s with
  | "" => [""]
  | String c s' =>
      if decide (c = sep) then "" :: split sep s'
      else match split sep s' with
           | [] => [String c ""]
           | w :: ws => String c w :: ws
           end
  end.

End Str.

(** ** Regular expressions (the fragment [validPath] is written in) *)

Inductive regex : Type :=
| Eps
| BeginText                              (* ^ *)
| EndText                                (* $ *)
| Char (c : ascii)                       (* a literal byte *)
| Class (ranges : list (ascii * ascii))  (* [lo-hi...] *)
| Cat (r1 r2 : regex)
| Alt (r1 r2 : regex)                    (* r1|r2, r1 preferred *)
| Plus (r : regex)                       (* r+, greedy *)
| Capture (i : nat) (r : regex).         (* the i-th parenthesis *)

Fixpoint lit (s : string) : regex :=
  match s with
  | "" => Eps
  | String c "" => Char c
  | String c s' => Cat (Char c) (lit s')
  end.

(** The concrete syntax of a [regex], to compare with the source text. *)
Fixpoint pattern (r : regex) : string :=
  match r with
  | Eps => ""
  | BeginText => "^"
  | EndText => "$"
  | Char c => String c ""
  | Class rs =>
      "[" +:+ foldr (λ '(lo, hi) acc, String lo (String "-" (String hi acc))) "]" rs
  | Cat r1 r2 => pattern r1 +:+ pattern r2
  | Alt r1 r2 => pattern r1 +:+ "|" +:+ pattern r2
  | Plus r1 => pattern r1 +:+ "+"
  | Capture _ r1 => "(" +:+ pattern r1 +:+ ")"
  end.

Fixpoint NumSubexp (r : regex) : nat :=
  match r with
  | Cat r1 r2 | Alt r1 r2 => NumSubexp r1 `max` NumSubexp r2
  | Plus r1 => NumSubexp r1
  | Capture i r1 => i `max` NumSubexp r1
  | _ => 0
  end.

(** A matching thread: the offset reached in the text, the text still to
    read, and the submatches recorded so far. *)
Record thread : Type := Thread {
  pos : nat;
  rest : string;
  caps : gmap nat string
}.

Definition in_range (c : ascii) (r : ascii * ascii) : bool :=
  (nat_of_ascii r.1 <=? nat_of_ascii c)%nat && (nat_of_ascii c <=? nat_of_ascii r.2)%nat.

Definition in_class (rs : list (ascii * ascii)) (c : ascii) : bool :=
  existsb (in_range c) rs.

(** The loop of [r+]: after one match of [r] (a [step]), first every way
    of going on with more, then stopping there.  A step that consumes
    nothing is not repeated, so the length of the text bounds the number
    of steps, and [fuel] is set above it. *)
Fixpoint iterate (step : thread → list thread) (fuel : nat) (t0 : thread)
  : list thread :=
  match fuel with
  | 0 => []
  | S fuel' =>
      t1 ← step t0;
      (if decide (pos t0 < pos t1) then iterate step fuel' t1 else []) ++ [t1]
  end.

(** [run r t]: every way [r] can match at thread [t], most preferred
    first (alternation prefers its left branch, [+] prefers one more
    iteration). *)
Fixpoint run (r : regex) (t : thread) : list thread :=
  match r with
  | Eps => [t]
  | BeginText => if decide (pos t = 0) then [t] else []
  | EndText => match rest t with "" => [t] | _ => [] end
  | Char c =>
      match rest t with
      | String c' s' =>
          if decide (c = c') then [Thread (S (pos t)) s' (caps t)] else []
      | "" => []
      end
  | Class rs =>
      match rest t with
      | String c' s' =>
          if in_class rs c' then [Thread (S (pos t)) s' (caps t)] else []
      | "" => []
      end
  | Cat r1 r2 => t1 ← run r1 t; run r2 t1
  | Alt r1 r2 => run r1 t ++ run r2 t
  | Plus r1 => iterate (run r1) (S (String.length (rest t))) t
  | Capture i r1 =>
      t1 ← run r1 t;
      [Thread (pos t1) (rest t1) (<[i := Str.take (pos t1 - pos t) (rest t)]> (caps t1))]
  end.

(** [regexp.FindStringSubmatch]: the leftmost match, and at that offset
    the most preferred one; element 0 is the whole match, element [i] the
    text of the i-th parenthesis (empty when it took no part). [None] is
    Go's nil slice. *)
Fixpoint find_from (re : regex) (i : nat) (s : string) : option (list string) :=
  match run re (Thread i s ∅) with
  | t :: _ =>
      Some (Str.take (pos t - i) s ::
            map (λ k, default "" (caps t !! k)) (seq 1 (NumSubexp re)))
  | [] =>
      match s with
      | "" => None
      | String _ s' => find_from re (S i) s'
      end
  end.

Definition FindStringSubmatch (re : regex) (s : string) : option (list string) :=
  find_from re 0 s.

Definition alnum_class : regex :=
  Class [("a", "z"); ("A", "Z"); ("0", "9")]%char.

(** [var validPath = regexp.MustCompile("^/(edit|save|view)/([a-zA-Z0-9]+)$")] *)
Definition validPath : regex :=
  Cat BeginText
   (Cat (Char "/")
    (Cat (Capture 1 (Alt (lit "edit") (Alt (lit "save") (lit "view"))))
     (Cat (Char "/")
      (Cat (Capture 2 (Plus alnum_class))
       EndText)))).

(** ** Pages *)

(** [type Page struct { Title string; Body []byte }] *)
Record Page : Type := mkPage {
  Title : string;
  Body : list byte
}.

(** ** The operating system's files, as far as [os.WriteFile] and
    [os.ReadFile] are concerned *)

Module os.

Inductive Errno : Type := ENOENT | EISDIR.

(** [*fs.PathError] *)
Record PathError : Type := mkPathError {
  Op : string;
  Path : string;
  Err : Errno
}.

Definition Errno_Error (e : Errno) : string :=
  match e with
  | ENOENT => "no such file or directory"
  | EISDIR => "is a directory"
  end.

Definition PathError_Error (e : PathError) : string :=
  Op e +:+ " " +:+ Path e +:+ ": " +:+ Errno_Error (Err e).

(** A regular file: its bytes, and the permission bits it was created
    with (the [perm] argument of the creating call, before umask). *)
Record File : Type := mkFile {
  data : list byte;
  perm : Z
}.

(** Names are the strings the program passes, relative to the working
    directory, and are compared literally.  Access rights are not
    modelled: the process owns the files it serves. *)
Record FS : Type := mkFS {
  files : gmap string File;
  dirs : gset string
}.

(** The directory part of a name: the text before its last slash, or
    ["."] (the working directory) when it has none. *)
Fixpoint Dir_aux (s : string) : option string :=
  match s with
  | "" => None
  | String c s' =>
      match Dir_aux s' with
      | Some d => Some (String c d)
      | None => if decide (c = "/"%char) then Some "" else None
      end
  end.

Definition Dir (name : string) : string := default "." (Dir_aux name).

(** The last element of a name: the text after its last slash. *)
Fixpoint Base (s : string) : string :=
  match s with
  | "" => ""
  | String c s' =>
      if Str.mem "/"%char s' then Base s'
      else if decide (c = "/"%char) then s' else s
  end.

Definition dir_exists (fs : FS) (d : string) : bool :=
  bool_decide (d = "." ∨ d ∈ dirs fs).

(** [os.WriteFile(name, data, perm)]: creates the file with [perm] when
    it does not exist, otherwise truncates it and keeps its permission
    bits; fails when the directory is missing or the name is one of a
    directory. *)
Definition WriteFile (name : string) (b : list byte) (p : Z) (fs : FS)
  : FS * option PathError :=
  if negb (dir_exists fs (Dir name)) then
    (fs, Some (mkPathError "open" name ENOENT))
  else if bool_decide (name ∈ dirs fs) then
    (fs, Some (mkPathError "open" name EISDIR))
  else
    let f := match files fs !! name with
             | Some old => mkFile b (perm old)
             | None => mkFile b p
             end in
    (mkFS (<[name := f]> (files fs)) (dirs fs), None).

(** [os.ReadFile(name)] *)
Definition ReadFile (name : string) (fs : FS) : list byte + PathError :=
  if bool_decide (name ∈ dirs fs) then
    inr (mkPathError "read" name EISDIR)
  else
    match files fs !! name with
    | Some f => inl (data f)
    | None => inr (mkPathError "open" name ENOENT)
    end.

End os.

(** Go's [error] values that reach this program. *)
Inductive error : Type :=
| PathErr (e : os.PathError)
| TemplateErr (msg : string).

Definition Error (e : error) : string :=
  match e with
  | PathErr pe => os.PathError_Error pe
  | TemplateErr msg => msg
  end.

(** ** The page store *)

(** 0600: read and write for the owner, nothing for group and others. *)
Definition perm_0600 : Z := 0x180.

(** [func (p *Page) save() error] *)
Definition save (p : Page) (fs : os.FS) : os.FS * option error :=
  let filename := Title p +:+ ".txt" in
  let '(fs', err) := os.WriteFile ("data/" +:+ filename) (Body p) perm_0600 fs in
  (fs', PathErr <$> err).

(** [func loadPage(title string)]: the page, or the error of the read. *)
Definition loadPage (title : string) (fs : os.FS) : Page + error :=
  let filename := ("data/" +:+ title) +:+ ".txt" in
  match os.ReadFile filename fs with
  | inr err => inr (PathErr err)
  | inl body => inl (mkPage title body)
  end.

(** ** html/template *)

(** An executable template: the bytes it writes for a page, and the error
    its execution ends with, if any (the bytes written before a failure
    stay written). *)
Definition Template : Type := Page → list byte * option string.

Inductive outcome (A : Type) : Type :=
| Value (a : A)
| Panic (e : error).
Arguments Value {A} a.
Arguments Panic {A} e.

Definition dquote : string := String (ascii_of_nat 34) "".

Module template.

Section Parsing.
(** The parser of the template language: from a template's name and
    text to the template, or to an error message. *)
Variable Parse : string → list byte → Template + string.

Fixpoint parseFiles (t : gmap string Template) (filenames : list string)
    (fs : os.FS) : gmap string Template + error :=
  match filenames with
  | [] => inl t
  | filename :: more =>
      let name := os.Base filename in
      match os.ReadFile filename fs with
      | inr e => inr (PathErr e)
      | inl b =>
          match Parse name b with
          | inr msg => inr (TemplateErr msg)
          | inl tm => parseFiles (<[name := tm]> t) more fs
          end
      end
  end.

(** [template.ParseFiles(filenames...)] *)
Definition ParseFiles (filenames : list string) (fs : os.FS)
  : gmap string Template + error :=
  match filenames with
  | [] => inr (TemplateErr "html/template: no files named in call to ParseFiles")
  | _ => parseFiles ∅ filenames fs
  end.
End Parsing.

(** [template.Must(t, err)] *)
Definition Must {A : Type} (r : A + error) : outcome A :=
  match r with
  | inl t => Value t
  | inr e => Panic e
  end.

End template.

(** ** net/http *)

Module http.

Definition StatusOK : Z := 200.
Definition StatusFound : Z := 302.
Definition StatusNotFound : Z := 404.
Definition StatusInternalServerError : Z := 500.

(** What a handler reads of a request: the method, [r.URL.Path], the
    query parameters of the URL, and the fields of a form-encoded
    body. *)
Record Request : Type := mkRequest {
  Method : string;
  URL_Path : string;
  URL_Query : list (string * string);
  Body_Form : list (string * string)
}.

(** What has been done to a response, oldest first. *)
Inductive Event : Type :=
| Written (b : list byte)                 (* w.Write(b) *)
| Errored (msg : string) (code : Z)       (* http.Error(w, msg, code) *)
| Redirected (url : string) (code : Z).   (* http.Redirect(w, r, url, code) *)

Definition ResponseWriter : Type := list Event.

Definition Write (w : ResponseWriter) (b : list byte) : ResponseWriter :=
  w ++ [Written b].

Definition Error (w : ResponseWriter) (msg : string) (code : Z) : ResponseWriter :=
  w ++ [Errored msg code].

Definition Redirect (w : ResponseWriter) (r : Request) (url : string) (code : Z)
  : ResponseWriter :=
  w ++ [Redirected url code].

(** [func NotFound(w, r) { Error(w, "404 page not found", StatusNotFound) }] *)
Definition NotFound (w : ResponseWriter) (r : Request) : ResponseWriter :=
  Error w "404 page not found" StatusNotFound.

(** The status line of a response is fixed by the first thing done to
    it: a write sends 200, [Error] and [Redirect] send their code. *)
Definition StatusCode (w : ResponseWriter) : option Z :=
  match w with
  | [] => None
  | Written _ :: _ => Some StatusOK
  | Errored _ code :: _ => Some code
  | Redirected _ code :: _ => Some code
  end.

Definition has_form_body (method : string) : bool :=
  bool_decide (method = "POST" ∨ method = "PUT" ∨ method = "PATCH").

(** [r.Form]: the body's fields (for POST, PUT and PATCH) before the
    URL's. *)
Definition Form (r : Request) : list (string * string) :=
  (if has_form_body (Method r) then Body_Form r else []) ++ URL_Query r.

(** [r.FormValue(key)]: the first value for [key], or the empty string. *)
Definition FormValue (r : Request) (key : string) : string :=
  match filter (λ kv, kv.1 = key) (Form r) with
  | kv :: _ => kv.2
  | [] => ""
  end.

Definition Handler : Type :=
  ResponseWriter → Request → os.FS → ResponseWriter * os.FS.

(** A [ServeMux] as its registered patterns.  A pattern that ends in a
    slash names a subtree and matches every path it is a prefix of; the
    longest matching pattern wins; no pattern here names a method or a
    host, so neither is looked at. *)
Definition ServeMux : Type := list (string * Handler).

Definition HandleFunc (pat : string) (h : Handler) (mux : ServeMux) : ServeMux :=
  mux ++ [(pat, h)].

Definition is_subtree (pat : string) : bool :=
  match String.rev pat with
  | String c _ => bool_decide (c = "/"%char)
  | "" => false
  end.

Definition pattern_matches (pat path : string) : bool :=
  if is_subtree pat then String.prefix pat path
  else bool_decide (pat = path).

Fixpoint lookup (mux : ServeMux) (path : string) : option (string * Handler) :=
  match mux with
  | [] => None
  | (pat, h) :: mux' =>
      let best := lookup mux' path in
      if pattern_matches pat path then
        match best with
        | Some (pat', h') =>
            if (String.length pat <? String.length pat')%nat then best
            else Some (pat, h)
        | None => Some (pat, h)
        end
      else best
  end.

Definition ServeHTTP (mux : ServeMux) : Handler :=
  λ w r fs,
    match lookup mux (URL_Path r) with
    | Some (_, h) => h w r fs
    | None => (NotFound w r, fs)
    end.

End http.

(** ** The program *)

Section Wiki.

(** [var templates = template.Must(template.ParseFiles(...))], once it
    holds a value. *)
Variable templates : gmap string Template.

(** [templates.ExecuteTemplate(w, name, p)] *)
Definition ExecuteTemplate (w : http.ResponseWriter) (name : string) (p : Page)
  : http.ResponseWriter * option error :=
  match (templates !! name : option Template) with
  | None =>
      (w, Some (TemplateErr ("html/template: " +:+ dquote +:+ name +:+ dquote +:+ " is undefined")))
  | Some tm =>
      let '(out, err) := tm p in
      (http.Write w out, TemplateErr <$> err)
  end.

(** [func renderTemplate(w http.ResponseWriter, tmpl string, p *Page)] *)
Definition renderTemplate (w : http.ResponseWriter) (tmpl : string) (p : Page)
  : http.ResponseWriter :=
  let '(w1, err) := ExecuteTemplate w (tmpl +:+ ".html") p in
  match err with
  | Some e => http.Error w1 (Error e) http.StatusInternalServerError
  | None => w1
  end.

(** [func makeHandler(fn func(http.ResponseWriter, *http.Request, string)) http.HandlerFunc] *)
Definition makeHandler
    (fn : http.ResponseWriter → http.Request → string → os.FS → http.ResponseWriter * os.FS)
  : http.Handler :=
  λ w r fs,
    match FindStringSubmatch validPath (http.URL_Path r) with
    | None => (http.NotFound w r, fs)
    | Some m => fn w r (nth 2 m "") fs
    end.

Definition viewHandler (w : http.ResponseWriter) (r : http.Request) (title : string)
    (fs : os.FS) : http.ResponseWriter * os.FS :=
  match loadPage title fs with
  | inr err => (http.Redirect w r ("/edit/" +:+ title) http.StatusFound, fs)
  | inl p => (renderTemplate w "view" p, fs)
  end.

Definition editHandler (w : http.ResponseWriter) (r : http.Request) (title : string)
    (fs : os.FS) : http.ResponseWriter * os.FS :=
  let p := match loadPage title fs with
           | inr err => mkPage title []
           | inl p => p
           end in
  (renderTemplate w "edit" p, fs).

Definition saveHandler (w : http.ResponseWriter) (r : http.Request) (title : string)
    (fs : os.FS) : http.ResponseWriter * os.FS :=
  let body := http.FormValue r "body" in
  let p := mkPage title (list_byte_of_string body) in
  match save p fs with
  | (fs', Some err) => (http.Error w (Error err) http.StatusInternalServerError, fs')
  | (fs', None) => (http.Redirect w r ("/view/" +:+ title) http.StatusFound, fs')
  end.

(** The three [http.HandleFunc] calls of [main], on the default mux. *)
Definition DefaultServeMux : http.ServeMux :=
  http.HandleFunc "/save/" (makeHandler saveHandler)
    (http.HandleFunc "/edit/" (makeHandler editHandler)
      (http.HandleFunc "/view/" (makeHandler viewHandler) [])).

End Wiki.

(** The process: package initialisation, then [main].  It either panics
    while [templates] is initialised, or reaches [http.ListenAndServe]
    with the handler it serves requests with. *)
Inductive Process : Type :=
| Aborted (e : error)
| Serving (h : http.Handler).

Definition main (Parse : string → list byte → Template + string) (fs : os.FS) : Process :=
  match template.Must (template.ParseFiles Parse ["tmpl/edit.html"; "tmpl/view.html"] fs) with
  | Panic e => Aborted e
  | Value templates => Serving (http.ServeHTTP (DefaultServeMux templates))
  end.

(** ** Vocabulary of the properties *)

(** An ASCII letter or digit, by its code. *)
Definition is_alnum (c : ascii) : bool :=
  let n := nat_of_ascii c in
  ((48 <=? n) && (n <=? 57) || (65 <=? n) && (n <=? 90) || (97 <=? n) && (n <=? 122))%nat.

(** One or more ASCII letters or digits. *)
Definition valid_title (title : string) : Prop :=
  title ≠ "" ∧ Str.all is_alnum title = true.

(** The three path shapes [/view/<title>], [/edit/<title>], [/save/<title>]. *)
Definition route_shape (path : string) : Prop :=
  ∃ verb title,
    (verb = "view" ∨ verb = "edit" ∨ verb = "save") ∧
    valid_title title ∧
    path = "/" +:+ verb +:+ "/" +:+ title.

(** The verb and the title of a path of one of the three shapes, read
    off the path without the regular expression. *)
Definition route (path : string) : option (string * string) :=
  s1 ← Str.cut_prefix "/" path;
  '(verb, s2) ← head (omap (λ v, pair v <$> Str.cut_prefix v s1) ["edit"; "save"; "view"]);
  title ← Str.cut_prefix "/" s2;
  match title with
  | "" => None
  | _ => if Str.all is_alnum title then Some (verb, title) else None
  end.

(** The file that [os.WriteFile name b p] leaves under [name]. *)
Definition written (name : string) (b : list byte) (p : Z) (fs : os.FS) : os.File :=
  match os.files fs !! name with
  | Some old => os.mkFile b (os.perm old)
  | None => os.mkFile b p
  end.

(** Where a relative name leads from the working directory: the elements
    of the resulting path, outermost first.  Empty elements and ["."] stay
    in place, [".."] goes up; [None] when the name climbs out of the
    working directory. *)
Fixpoint walk (up : list string) (elems : list string) : option (list string) :=
  match elems with
  | [] => Some (reverse up)
  | e :: more =>
      if bool_decide (e = "" ∨ e = ".") then walk up more
      else if bool_decide (e = "..") then
        match up with
        | [] => None
        | _ :: up' => walk up' more
        end
      else walk (e :: up) more
  end.

Definition resolve (name : string) : option (list string) :=
  walk [] (Str.split "/"%char name).

(** The name leads to something below the directory [root]. *)
Definition stays_under (root name : string) : Prop :=
  ∃ below, below ≠ [] ∧ resolve name = Some (root :: below).

(** The template file [filename] can be read and its text parses. *)
Definition template_loads (Parse : string → list byte → Template + string)
    (fs : os.FS) (filename : string) : Prop :=
  ∃ text (tm : Template),
    os.ReadFile filename fs = inl text ∧ Parse (os.Base filename) text = inl tm.

(** A template language to run the program on: a text is a template
    unless it is empty, and executing it writes the text followed by the
    page's body. *)
Definition Parse_plain (name : string) (text : list byte) : Template + string :=
  match text with
  | [] => inr ("template: " +:+ name +:+ ": empty")
  | _ => inl (λ p, (text ++ Body p, None))
  end.

Definition fs_empty : os.FS := os.mkFS ∅ ∅.

(** A working directory with the two templates and an empty [data]. *)
Definition fs_fresh : os.FS :=
  os.mkFS
    (<["tmpl/edit.html" := os.mkFile (list_byte_of_string "edit:") 0x1a4]>
      (<["tmpl/view.html" := os.mkFile (list_byte_of_string "view:") 0x1a4]> ∅))
    {["data"; "tmpl"]}.

Definition templates_plain : gmap string Template :=
  match template.ParseFiles Parse_plain ["tmpl/edit.html"; "tmpl/view.html"] fs_fresh with
  | inl t => t
  | inr _ => ∅
  end.

(** ** Checks on concrete inputs *)

Example validPath_pattern :
  pattern validPath = "^/(edit|save|view)/([a-zA-Z0-9]+)$".
Proof. reflexivity. Qed.

Example find_view : FindStringSubmatch validPath "/view/foo" = Some ["/view/foo"; "view"; "foo"].
Proof. vm_compute. reflexivity. Qed.

Example find_bad1 : FindStringSubmatch validPath "/view/" = None.
Proof. vm_compute. reflexivity. Qed.

Example find_bad2 : FindStringSubmatch validPath "/view/foo/bar" = None.
Proof. vm_compute. reflexivity. Qed.

Example find_bad3 : FindStringSubmatch validPath "x/view/foo" = None.
Proof. vm_compute. reflexivity. Qed.

Example walk_escape : resolve "data/../../etc/passwd.txt" = None.
Proof. vm_compute. reflexivity. Qed.

Example walk_inside : resolve "data/foo.txt" = Some ["data"; "foo.txt"].
Proof. vm_compute. reflexivity. Qed.

Example save_then_view :
  let r := http.mkRequest "POST" "/save/test" [] [("body", "hello world")] in
  let '(w1, fs1) := http.ServeHTTP (DefaultServeMux templates_plain) [] r fs_fresh in
  let '(w2, _) := http.ServeHTTP (DefaultServeMux templates_plain) []
                    (http.mkRequest "GET" "/view/test" [] []) fs1 in
  w1 = [http.Redirected "/view/test" 302] ∧
  os.data <$> (os.files fs1 !! "data/test.txt") = Some (list_byte_of_string "hello world") ∧
  w2 = [http.Written (list_byte_of_string "view:hello world")].
Proof. vm_compute. auto. Qed.

(** ** Strings *)

Lemma cut_prefix_app p s : Str.cut_prefix p (p +:+ s) = Some s.
Proof.
  induction p as [|a p IH]; simpl; [done|].
  by rewrite decide_True.
Qed.

Lemma cut_prefix_Some p s s' : Str.cut_prefix p s = Some s' → s = p +:+ s'.
Proof.
  revert s; induction p as [|a p IH]; intros s; simpl.
  - by intros [= ->].
  - destruct s as [|b s]; [done|].
    case_decide; [|done]. subst b. intros H. by rewrite (IH _ H).
Qed.

Lemma take_length s : Str.take (String.length s) s = s.
Proof. induction s as [|c s IH]; simpl; [done|]. by rewrite IH. Qed.

Lemma string_app_assoc (a b c : string) : (a +:+ b) +:+ c = a +:+ (b +:+ c).
Proof. induction a as [|x a IH]; simpl; [done|]. by rewrite IH. Qed.

Lemma mem_app c (a b : string) : Str.mem c (a +:+ b) = Str.mem c a || Str.mem c b.
Proof.
  induction a as [|x a IH]; simpl; [done|].
  by rewrite IH, orb_assoc.
Qed.

(** ** The character class *)

Lemma in_class_alnum c :
  in_class [("a", "z"); ("A", "Z"); ("0", "9")]%char c = is_alnum c.
Proof.
  unfold in_class, in_range, is_alnum; cbn [existsb fst snd].
  generalize (nat_of_ascii c); intros n.
  change (nat_of_ascii "a") with 97; change (nat_of_ascii "z") with 122.
  change (nat_of_ascii "A") with 65; change (nat_of_ascii "Z") with 90.
  change (nat_of_ascii "0") with 48; change (nat_of_ascii "9") with 57.
  repeat match goal with
         | |- context [(?a <=? ?b)%nat] => destruct (Nat.leb_spec a b)
         end; simpl; try reflexivity; lia.
Qed.

Lemma alnum_no_slash (s : string) : Str.all is_alnum s = true → Str.mem "/"%char s = false.
Proof.
  induction s as [|c s IH]; simpl; [done|].
  intros [Hc Hs]%andb_true_iff. rewrite (IH Hs), orb_false_r.
  case_decide; [|done]. subst c. by vm_compute in Hc.
Qed.

(** ** The matcher on the pieces of [validPath] *)

Lemma run_lit l t :
  l ≠ "" →
  run (lit l) t =
    match Str.cut_prefix l (rest t) with
    | Some s' => [Thread (pos t + String.length l) s' (caps t)]
    | None => []
    end.
Proof.
  revert t; induction l as [|c l IH]; intros t Hl; [done|].
  destruct l as [|c2 l].
  - simpl. destruct (rest t) as [|b s]; [done|].
    case_decide; [|done]. by rewrite Nat.add_1_r.
  - change (lit (String c (String c2 l))) with (Cat (Char c) (lit (String c2 l))).
    remember (String c2 l) as l2 eqn:Hl2.
    cbn [run]. destruct (rest t) as [|b s] eqn:Hr; cbn [Str.cut_prefix]; [done|].
    case_decide; [|done].
    rewrite bind_singleton, IH by (by subst l2). cbn [rest pos caps].
    destruct (Str.cut_prefix l2 s); [|done].
    do 2 f_equal. simpl. lia.
Qed.

Lemma iterate_S step fuel t0 :
  iterate step (S fuel) t0 =
    t1 ← step t0;
    (if decide (pos t0 < pos t1) then iterate step fuel t1 else []) ++ [t1].
Proof. reflexivity. Qed.

Lemma run_Class_cons rs p ch s c :
  run (Class rs) (Thread p (String ch s) c) =
    if in_class rs ch then [Thread (S p) s c] else [].
Proof. reflexivity. Qed.

(** The threads of [[...]+] that have read the whole text: there is one
    exactly when the text is not empty and lies in the class. *)
Lemma iterate_class_end rs (g : thread → thread) c fuel : ∀ p s,
  String.length s < fuel →
  iterate (run (Class rs)) fuel (Thread p s c)
    ≫= (λ t1, match rest t1 with "" => [g t1] | _ => [] end)
  = match s with
    | "" => []
    | _ => if Str.all (in_class rs) s
           then [g (Thread (p + String.length s) "" c)] else []
    end.
Proof.
  induction fuel as [|fuel IH]; intros p s Hlen; [lia|].
  destruct s as [|ch s]; [done|].
  rewrite iterate_S, run_Class_cons. cbn [Str.all].
  destruct (in_class rs ch); [|done].
  rewrite bind_singleton. cbn [pos].
  destruct (decide (p < S p)) as [_|?]; [|exfalso; lia].
  rewrite bind_app, bind_singleton. rewrite IH by (simpl in Hlen; lia).
  cbn [rest andb]. destruct s as [|ch2 s].
  - simpl. by rewrite Nat.add_1_r.
  - destruct (Str.all _ _); [|done].
    rewrite app_nil_r. do 3 f_equal. simpl. lia.
Qed.

Lemma all_ext (p q : ascii → bool) s : (∀ c, p c = q c) → Str.all p s = Str.all q s.
Proof. intros H. induction s as [|c s IH]; simpl; [done|]. by rewrite H, IH. Qed.

Lemma list_bind_assoc {A B C} (f : A → list B) (g : B → list C) (l : list A) :
  (l ≫= f) ≫= g = l ≫= (λ x, f x ≫= g).
Proof.
  induction l as [|x l IH]; [done|].
  by rewrite !bind_cons, bind_app, IH.
Qed.

(** The title part of the pattern, [/([a-zA-Z0-9]+)$], from a thread. *)
Lemma run_title p s c :
  run (Cat (Char "/") (Cat (Capture 2 (Plus alnum_class)) EndText)) (Thread p s c) =
    match Str.cut_prefix "/" s with
    | Some (String a title' as title) =>
        if Str.all is_alnum title
        then [Thread (p + String.length s) "" (<[2 := title]> c)]
        else []
    | _ => []
    end.
Proof.
  cbn [run pos rest caps].
  destruct s as [|c0 title]; [done|].
  cbn [Str.cut_prefix]. case_decide; [subst c0|done].
  rewrite bind_singleton. cbn [pos rest caps].
  rewrite list_bind_assoc.
  erewrite list_bind_ext; [|intros t2; rewrite bind_singleton; cbn [run rest]; reflexivity|reflexivity].
  unfold alnum_class.
  rewrite (iterate_class_end _
    (λ t2, Thread (pos t2) (rest t2) (<[2 := Str.take (pos t2 - S p) title]> (caps t2))))
    by lia.
  destruct title as [|a title']; [done|].
  rewrite (all_ext _ is_alnum) by apply in_class_alnum.
  destruct (Str.all is_alnum _); [|done].
  cbn [pos rest caps].
  replace (S p + String.length (String a title') - S p) with (String.length (String a title')) by lia.
  rewrite take_length. do 2 f_equal. simpl. lia.
Qed.

Lemma run_validPath s :
  run validPath (Thread 0 s ∅) =
    match route s with
    | Some (verb, title) =>
        [Thread (String.length s) "" (<[2 := title]> (<[1 := verb]> ∅))]
    | None => []
    end.
Proof.
  unfold validPath, route.
  remember (Cat (Char "/") (Cat (Capture 2 (Plus alnum_class)) EndText)) as tl eqn:Htl.
  cbn [run pos rest caps].
  destruct (decide (0 = 0)) as [_|?]; [|done].
  rewrite bind_singleton. cbn [pos rest caps].
  destruct s as [|c0 s1]; [done|].
  cbn [Str.cut_prefix].
  case_decide; [subst c0|done].
  rewrite bind_singleton. cbn [pos rest caps mbind option_bind].
  rewrite !run_lit by done. cbn [pos rest caps].
  cbv beta iota delta [omap list_omap head fmap option_fmap option_map].
  destruct (Str.cut_prefix "edit" s1) as [s2|] eqn:E1;
    [apply cut_prefix_Some in E1; subst s1|
     destruct (Str.cut_prefix "save" s1) as [s2|] eqn:E2;
       [apply cut_prefix_Some in E2; subst s1|
        destruct (Str.cut_prefix "view" s1) as [s2|] eqn:E3;
          [apply cut_prefix_Some in E3; subst s1|done]]].
  all: simpl; subst tl; rewrite run_title, app_nil_r.
  all: destruct s2 as [|b title]; [done|].
  all: cbn [Str.cut_prefix]; case_decide; [|done].
  all: destruct title as [|a title']; [done|].
  all: cbn [mbind option_bind]; by destruct (Str.all is_alnum _).
Qed.

(** Away from offset 0 the pattern cannot start: [^] fails. *)
Lemma run_validPath_off i s c : 0 < i → run validPath (Thread i s c) = [].
Proof.
  intros Hi. unfold validPath.
  remember (Cat (Char "/") _) as tl.
  cbn [run pos]. destruct (decide (i = 0)); [lia|done].
Qed.

Lemma find_from_unfold re i s :
  find_from re i s =
    match run re (Thread i s ∅) with
    | t :: _ =>
        Some (Str.take (pos t - i) s ::
              map (λ k, default "" (caps t !! k)) (seq 1 (NumSubexp re)))
    | [] =>
        match s with
        | "" => None
        | String _ s' => find_from re (S i) s'
        end
    end.
Proof. by destruct s. Qed.

Lemma find_from_validPath_off s : ∀ i, 0 < i → find_from validPath i s = None.
Proof.
  induction s as [|c s IH]; intros i Hi;
    rewrite find_from_unfold, run_validPath_off by done; [done|].
  apply IH; lia.
Qed.

(** [validPath.FindStringSubmatch] in closed form. *)
Lemma FindStringSubmatch_validPath path :
  FindStringSubmatch validPath path =
    match route path with
    | Some (verb, title) => Some [path; verb; title]
    | None => None
    end.
Proof.
  unfold FindStringSubmatch. rewrite find_from_unfold, run_validPath.
  destruct (route path) as [[verb title]|].
  - cbn [pos caps]. rewrite Nat.sub_0_r, take_length.
    change (seq 1 (NumSubexp validPath)) with [1; 2]. cbn [map].
    rewrite lookup_insert_ne, lookup_insert_eq, lookup_insert_eq by done.
    done.
  - destruct path; [done|]. apply find_from_validPath_off; lia.
Qed.

(** [route] finds exactly the paths of the three shapes. *)
Lemma route_Some path verb title :
  route path = Some (verb, title) ↔
  (verb = "view" ∨ verb = "edit" ∨ verb = "save") ∧
  valid_title title ∧
  path = "/" +:+ verb +:+ "/" +:+ title.
Proof.
  unfold route, valid_title. split.
  - destruct (Str.cut_prefix "/" path) as [s1|] eqn:E0; [|done].
    apply cut_prefix_Some in E0. subst path. cbn [mbind option_bind].
    cbv beta iota delta [omap list_omap head fmap option_fmap option_map].
    intros H.
    assert (∃ s2, Str.cut_prefix verb s1 = Some s2 ∧
                  (verb = "view" ∨ verb = "edit" ∨ verb = "save") ∧
                  Str.cut_prefix "/" s2 = Some title ∧
                  title ≠ "" ∧ Str.all is_alnum title = true) as (s2 & E & Hv & E' & Hne & Hall).
    { destruct (Str.cut_prefix "edit" s1) as [s2|] eqn:E1;
        [|destruct (Str.cut_prefix "save" s1) as [s2|] eqn:E2;
          [|destruct (Str.cut_prefix "view" s1) as [s2|] eqn:E3; [|done]]].
      all: cbn [mbind option_bind] in H.
      all: destruct (Str.cut_prefix "/" s2) as [t|] eqn:E'; [|done].
      all: cbn [mbind option_bind] in H.
      all: destruct t as [|a t']; [done|].
      all: destruct (Str.all is_alnum (String a t')) eqn:Hall; [|done].
      all: injection H as <- <-; exists s2; naive_solver. }
    apply cut_prefix_Some in E, E'. subst. clear H. done.
  - intros (Hv & [Hne Hall] & Hp). subst path.
    destruct title as [|a t']; [done|].
    destruct Hv as [-> | [-> | ->] ]; simpl; rewrite ?decide_True by done.
    all: simpl in Hall; by rewrite Hall.
Qed.

Lemma route_None path : route path = None ↔ ¬ route_shape path.
Proof.
  split.
  - intros H (verb & title & Hv & Ht & Hp).
    assert (route path = Some (verb, title)) by (by apply route_Some).
    congruence.
  - intros H. destruct (route path) as [[verb title]|] eqn:E; [|done].
    apply route_Some in E as (? & ? & ?). exfalso. apply H. by exists verb, title.
Qed.

(** Element 2 of a submatch of [validPath] always exists: the index
    [m[2]] of [makeHandler] is in range. *)
Lemma validPath_submatch_length path m :
  FindStringSubmatch validPath path = Some m → length m = 3.
Proof.
  rewrite FindStringSubmatch_validPath.
  destruct (route path) as [[verb title]|]; [|done].
  by intros [= <-].
Qed.

(** ** File names *)

Lemma split_no_sep sep s : Str.mem sep s = false → Str.split sep s = [s].
Proof.
  induction s as [|c s IH]; simpl; [done|].
  intros [Hc Hs]%orb_false_iff.
  destruct (decide (sep = c)) as [->|Hne]; [done|].
  rewrite decide_False by congruence. by rewrite (IH Hs).
Qed.

Lemma load_name_save_name title :
  ("data/" +:+ title) +:+ ".txt" = "data/" +:+ (title +:+ ".txt").
Proof. apply string_app_assoc. Qed.

Lemma valid_title_leaf title :
  valid_title title →
  Str.mem "/"%char (title +:+ ".txt") = false ∧
  title +:+ ".txt" ≠ "" ∧ title +:+ ".txt" ≠ "." ∧ title +:+ ".txt" ≠ "..".
Proof.
  intros [Hne Hall]. split.
  - by rewrite mem_app, (alnum_no_slash _ Hall).
  - destruct title as [|a t]; [done|]. simpl in Hall.
    apply andb_true_iff in Hall as [Ha _].
    repeat split; intros [= -> ?]; by vm_compute in Ha.
Qed.

Lemma valid_title_resolve title :
  valid_title title →
  resolve ("data/" +:+ title +:+ ".txt") = Some ["data"; title +:+ ".txt"].
Proof.
  intros Ht. destruct (valid_title_leaf _ Ht) as (Hmem & H0 & H1 & H2).
  unfold resolve.
  assert (Str.split "/" ("data/" +:+ title +:+ ".txt") = ["data"; title +:+ ".txt"]) as ->.
  { simpl. by rewrite (split_no_sep _ _ Hmem). }
  cbn [walk]. rewrite (bool_decide_eq_false_2 ("data" = "" ∨ _)) by (by intros [|]).
  rewrite (bool_decide_eq_false_2 ("data" = "..")) by done.
  rewrite (bool_decide_eq_false_2 (_ ∨ _)) by (by intros [|]).
  by rewrite (bool_decide_eq_false_2 (_ = "..")).
Qed.

(** ** The router *)

(** An accepted path hands its title to the wrapped function. *)
Lemma makeHandler_accepts fn w (r : http.Request) fs verb title :
  route (http.URL_Path r) = Some (verb, title) →
  makeHandler fn w r fs = fn w r title fs.
Proof.
  intros H. unfold makeHandler. by rewrite FindStringSubmatch_validPath, H.
Qed.

Lemma makeHandler_rejects fn w (r : http.Request) fs :
  route (http.URL_Path r) = None →
  makeHandler fn w r fs = (http.NotFound w r, fs).
Proof.
  intros H. unfold makeHandler. by rewrite FindStringSubmatch_validPath, H.
Qed.

(** C1.  When [validPath] accepts the path of a request, [makeHandler]
    runs the wrapped function on element 2 of the submatch, and that
    title is one or more ASCII letters and digits.  So the title holds no
    slash, the file name ["data/" + title + ".txt"] that [save] and
    [loadPage] build (they build the same one) splits at its slashes into
    [data] and [title.txt], and it leads below the directory [data]. *)
Theorem accepted_title_is_safe (r : http.Request) (m : list string) :
  FindStringSubmatch validPath (http.URL_Path r) = Some m →
  let title := nth 2 m "" in
  (∀ fn w fs, makeHandler fn w r fs = fn w r title fs) ∧
  valid_title title ∧
  Str.mem "/"%char title = false ∧
  ("data/" +:+ title) +:+ ".txt" = "data/" +:+ (title +:+ ".txt") ∧
  Str.split "/"%char ("data/" +:+ (title +:+ ".txt")) = ["data"; title +:+ ".txt"] ∧
  stays_under "data" ("data/" +:+ (title +:+ ".txt")).
Proof.
  intros Hm. pose proof Hm as Hr. rewrite FindStringSubmatch_validPath in Hr.
  destruct (route (http.URL_Path r)) as [[verb title]|] eqn:E; [|done].
  injection Hr as <-. cbn [nth].
  pose proof E as (Hv & Ht & Hp)%route_Some.
  destruct (valid_title_leaf _ Ht) as (Hmem & _).
  split; [intros fn w fs; by apply makeHandler_accepts with verb|].
  split; [done|].
  split; [apply alnum_no_slash, Ht|].
  split; [apply load_name_save_name|].
  split; [simpl; by rewrite (split_no_sep _ _ Hmem)|].
  exists [title +:+ ".txt"]. split; [done|]. by apply valid_title_resolve.
Qed.

Lemma accepted_title_is_safe_witness :
  FindStringSubmatch validPath "/view/foo" = Some ["/view/foo"; "view"; "foo"] ∧
  valid_title "foo" ∧
  stays_under "data" "data/foo.txt".
Proof.
  assert (FindStringSubmatch validPath
            (http.URL_Path (http.mkRequest "GET" "/view/foo" [] []))
          = Some ["/view/foo"; "view"; "foo"]) as H by (vm_compute; reflexivity).
  split; [exact H|].
  destruct (accepted_title_is_safe _ _ H) as (_ & Hv & _ & _ & _ & Hs).
  split; [exact Hv|exact Hs].
Defined.

(** C2.  When the path of a request is not of one of the shapes
    [/view/<title>], [/edit/<title>], [/save/<title>] with a title of one
    or more ASCII letters and digits, the wrapped handler answers through
    [http.NotFound], that is with status 404, whatever function it wraps:
    the function is not run and the files are left as they were. *)
Theorem unmatched_path_404 (r : http.Request) :
  ¬ route_shape (http.URL_Path r) →
  ∀ fn w fs,
    makeHandler fn w r fs = (w ++ [http.Errored "404 page not found" 404], fs) ∧
    http.StatusCode (makeHandler fn [] r fs).1 = Some 404%Z.
Proof.
  intros H%route_None fn w fs.
  by rewrite !makeHandler_rejects.
Qed.

Lemma unmatched_path_404_witness :
  ¬ route_shape "/view/foo/bar" ∧
  ∀ fn fs,
    makeHandler fn [] (http.mkRequest "GET" "/view/foo/bar" [] []) fs
    = ([http.Errored "404 page not found" 404], fs).
Proof.
  assert (¬ route_shape (http.URL_Path (http.mkRequest "GET" "/view/foo/bar" [] []))) as H
    by (apply route_None; vm_compute; reflexivity).
  split; [exact H|].
  intros fn fs. exact (proj1 (unmatched_path_404 _ H fn [] fs)).
Defined.

Example not_shape_empty_title : ¬ route_shape "/view/".
Proof. apply route_None. vm_compute. reflexivity. Qed.

Example not_shape_punctuation : ¬ route_shape "/view/foo!".
Proof. apply route_None. vm_compute. reflexivity. Qed.

Example not_shape_other_verb : ¬ route_shape "/delete/foo".
Proof. apply route_None. vm_compute. reflexivity. Qed.

Example not_shape_trailing_newline :
  ¬ route_shape ("/view/foo" +:+ String (ascii_of_nat 10) "").
Proof. apply route_None. vm_compute. reflexivity. Qed.

(** ** The page store *)

Lemma WriteFile_Some_None name b p fs fs' :
  os.WriteFile name b p fs = (fs', None) ↔
  os.dir_exists fs (os.Dir name) = true ∧ (name ∉ os.dirs fs) ∧
  fs' = os.mkFS (<[name := written name b p fs]> (os.files fs)) (os.dirs fs).
Proof.
  unfold os.WriteFile, written.
  destruct (os.dir_exists fs (os.Dir name)); simpl.
  - case_bool_decide as Hd.
    + split; [done|]. by intros (_ & ? & _).
    + split; [by intros [= <-]|]. by intros (_ & _ & ->).
  - split; [done|]. by intros (? & _).
Qed.

Lemma WriteFile_Some_err name b p fs fs' e :
  os.WriteFile name b p fs = (fs', Some e) →
  fs' = fs ∧ os.Op e = "open" ∧ os.Path e = name.
Proof.
  unfold os.WriteFile.
  destruct (os.dir_exists fs (os.Dir name)); simpl.
  - case_bool_decide; [|done]. by intros [= <- <-].
  - by intros [= <- <-].
Qed.

Lemma save_Some_None p fs fs' :
  save p fs = (fs', None) ↔
  os.WriteFile ("data/" +:+ (Title p +:+ ".txt")) (Body p) perm_0600 fs = (fs', None).
Proof.
  unfold save. destruct (os.WriteFile _ _ _ _) as [fs1 [e|]]; simpl.
  - by split.
  - split; by intros [= <-].
Qed.

Lemma ReadFile_after_write name f fs :
  name ∉ os.dirs fs →
  os.ReadFile name (os.mkFS (<[name := f]> (os.files fs)) (os.dirs fs)) = inl (os.data f).
Proof.
  intros Hd. unfold os.ReadFile. cbn [os.dirs os.files].
  rewrite bool_decide_eq_false_2 by done. by rewrite lookup_insert_eq.
Qed.

Lemma written_data name b p fs : os.data (written name b p fs) = b.
Proof. unfold written. by destruct (os.files fs !! name). Qed.

(** When [save] goes through: the directory of the name is there and the
    name is not itself a directory. *)
Lemma save_succeeds p fs :
  os.dir_exists fs (os.Dir ("data/" +:+ (Title p +:+ ".txt"))) = true →
  ("data/" +:+ (Title p +:+ ".txt")) ∉ os.dirs fs →
  ∃ fs', save p fs = (fs', None).
Proof.
  intros Hd Hn. eexists. apply save_Some_None, WriteFile_Some_None. eauto.
Qed.



Lemma renderTemplate_found (templates : gmap string Template) w tmpl p (tm : Template) :
  templates !! (tmpl +:+ ".html") = Some tm →
  renderTemplate templates w tmpl p =
    w ++ http.Written (tm p).1 ::
      match (tm p).2 with
      | Some msg => [http.Errored msg 500]
      | None => []
      end.
Proof.
  intros H. unfold renderTemplate, ExecuteTemplate. rewrite H.
  destruct (tm p) as [out [msg|]]; simpl.
  - unfold http.Error, http.Write. by rewrite <- app_assoc.
  - done.
Qed.

Lemma renderTemplate_missing (templates : gmap string Template) w tmpl p :
  templates !! (tmpl +:+ ".html") = None →
  renderTemplate templates w tmpl p =
    w ++ [http.Errored
            ("html/template: " +:+ dquote +:+ (tmpl +:+ ".html") +:+ dquote +:+ " is undefined")
            500].
Proof. intros H. unfold renderTemplate, ExecuteTemplate. by rewrite H. Qed.

Lemma loadPage_after_save title B fs fs' :
  save (mkPage title B) fs = (fs', None) →
  loadPage title fs' = inl (mkPage title B).
Proof.
  intros (_ & Hn & ->)%save_Some_None%WriteFile_Some_None. cbn [Title Body] in *.
  unfold loadPage. rewrite load_name_save_name, ReadFile_after_write by done.
  by rewrite written_data.
Qed.





(** C8.  For every title and bodies [a] and [b]: after a [save] of body
    [a] that returned without an error, a [save] of body [b] under the
    same title also returns without an error and leaves [b] as the stored
    content, which [loadPage] then returns.  The files are then as if only
    [b] had been saved: nothing of [a] is kept. *)
Theorem second_save_overwrites (title : string) (a b : list byte) (fs fs1 : os.FS) :
  save (mkPage title a) fs = (fs1, None) →
  ∃ fs2,
    save (mkPage title b) fs1 = (fs2, None) ∧
    os.data <$> os.files fs2 !! ("data/" +:+ (title +:+ ".txt")) = Some b ∧
    loadPage title fs2 = inl (mkPage title b) ∧
    save (mkPage title b) fs = (fs2, None).
Proof.
  intros Ha. pose proof Ha as (Hd & Hn & ->)%save_Some_None%WriteFile_Some_None.
  cbn [Title Body] in *. set (name := "data/" +:+ (title +:+ ".txt")) in *.
  assert (∃ fs2, save (mkPage title b) fs = (fs2, None)) as [fs2 Hb].
  { apply save_succeeds; done. }
  exists fs2.
  pose proof Hb as (_ & _ & ->)%save_Some_None%WriteFile_Some_None.
  cbn [Title Body] in *. fold name in Hb |- *.
  assert (save (mkPage title b)
            (os.mkFS (<[name := written name a perm_0600 fs]> (os.files fs)) (os.dirs fs))
          = (os.mkFS (<[name := written name b perm_0600 fs]> (os.files fs)) (os.dirs fs), None))
    as Hab.
  { apply save_Some_None, WriteFile_Some_None. cbn [Title Body os.files os.dirs].
    fold name. split; [exact Hd|]. split; [exact Hn|].
    f_equal. rewrite insert_insert_eq. f_equal.
    unfold written. cbn [os.files]. rewrite lookup_insert_eq.
    by destruct (os.files fs !! name). }
  split; [exact Hab|]. split.
  - cbn [os.files]. rewrite lookup_insert_eq. cbn [fmap option_fmap option_map].
    by rewrite written_data.
  - split; [|exact Hb]. by apply loadPage_after_save with fs.
Qed.

Lemma second_save_overwrites_witness :
  ∃ fs2,
    save (mkPage "X" (list_byte_of_string "b"))
      (save (mkPage "X" (list_byte_of_string "a")) fs_fresh).1 = (fs2, None) ∧
    os.data <$> os.files fs2 !! "data/X.txt" = Some (list_byte_of_string "b").
Proof.
  destruct (second_save_overwrites "X" (list_byte_of_string "a") (list_byte_of_string "b")
              fs_fresh (save (mkPage "X" (list_byte_of_string "a")) fs_fresh).1)
    as (fs2 & H1 & H2 & _).
  - vm_compute. reflexivity.
  - exists fs2. split; [exact H1|exact H2].
Defined.

(** ** The handlers *)

Lemma loadPage_absent title fs :
  os.files fs !! (("data/" +:+ title) +:+ ".txt") = None →
  ∃ err, loadPage title fs = inr err.
Proof.
  intros H. unfold loadPage, os.ReadFile.
  case_bool_decide; [eauto|]. rewrite H. eauto.
Qed.

(** C5.  For every title: when [loadPage(title)] fails, as it does when
    no file is stored for the title, the view handler answers with a
    redirect to ["/edit/" + title] with status 302 (Found) and nothing
    else, so no template is executed; when [loadPage] succeeds, the
    handler's answer is [renderTemplate] of "view" on the loaded page. *)
Theorem view_handler_cases templates w r title fs :
  (∀ err, loadPage title fs = inr err →
     viewHandler templates w r title fs
     = (w ++ [http.Redirected ("/edit/" +:+ title) 302], fs) ∧
     http.StatusCode (viewHandler templates [] r title fs).1 = Some 302%Z) ∧
  (os.files fs !! (("data/" +:+ title) +:+ ".txt") = None →
     viewHandler templates w r title fs
     = (w ++ [http.Redirected ("/edit/" +:+ title) 302], fs)) ∧
  (∀ p, loadPage title fs = inl p →
     viewHandler templates w r title fs = (renderTemplate templates w "view" p, fs)).
Proof.
  assert (∀ w' err, loadPage title fs = inr err →
            viewHandler templates w' r title fs
            = (w' ++ [http.Redirected ("/edit/" +:+ title) 302], fs)) as Hfail.
  { intros w' err H. unfold viewHandler. by rewrite H. }
  split; [|split].
  - intros err H. by rewrite !(Hfail _ err H).
  - intros [err H]%loadPage_absent. by apply Hfail with err.
  - intros p H. unfold viewHandler. by rewrite H.
Qed.

Lemma view_handler_cases_witness :
  os.files fs_fresh !! "data/alice.txt" = None ∧
  viewHandler templates_plain [] (http.mkRequest "GET" "/view/alice" [] []) "alice" fs_fresh
  = ([http.Redirected "/edit/alice" 302], fs_fresh).
Proof.
  assert (os.files fs_fresh !! (("data/" +:+ "alice") +:+ ".txt") = None) as H
    by (vm_compute; reflexivity).
  split; [exact H|].
  exact (proj1 (proj2 (view_handler_cases templates_plain []
                         (http.mkRequest "GET" "/view/alice" [] []) "alice" fs_fresh)) H).
Defined.

(** C6.  For every title: when [loadPage(title)] fails, the edit handler
    renders the edit template on a page whose title is the requested one
    and whose body is empty; when it succeeds, on the loaded page.  The
    files are not touched. *)
Theorem edit_handler_cases templates w r title fs :
  (∀ err, loadPage title fs = inr err →
     ∃ p, Title p = title ∧ Body p = [] ∧
          editHandler templates w r title fs = (renderTemplate templates w "edit" p, fs)) ∧
  (∀ p, loadPage title fs = inl p →
     editHandler templates w r title fs = (renderTemplate templates w "edit" p, fs)).
Proof.
  split.
  - intros err H. exists (mkPage title []). unfold editHandler. by rewrite H.
  - intros p H. unfold editHandler. by rewrite H.
Qed.

Lemma edit_handler_cases_witness :
  editHandler templates_plain [] (http.mkRequest "GET" "/edit/alice" [] []) "alice" fs_fresh
  = ([http.Written (list_byte_of_string "edit:")], fs_fresh).
Proof.
  destruct (proj1 (edit_handler_cases templates_plain []
                     (http.mkRequest "GET" "/edit/alice" [] []) "alice" fs_fresh)
              (PathErr (os.mkPathError "open" "data/alice.txt" os.ENOENT)))
    as (p & Ht & Hb & ->).
  - vm_compute. reflexivity.
  - destruct p as [t b]. simpl in Ht, Hb. subst t b. vm_compute. reflexivity.
Defined.

(** C7.  For every title, the save handler takes the form value "body",
    builds the page of the title and that body, and saves it once: when
    [save] returns no error, the answer is a redirect to
    ["/view/" + title] (status 302) and the files are those [save] left;
    when [save] returns an error, the answer is [http.Error] with the
    error's message and status 500, and the files are as they were. *)
Theorem save_handler_cases w r title fs :
  let p := mkPage title (list_byte_of_string (http.FormValue r "body")) in
  (∀ fs', save p fs = (fs', None) →
     saveHandler w r title fs = (w ++ [http.Redirected ("/view/" +:+ title) 302], fs')) ∧
  (∀ fs' err, save p fs = (fs', Some err) →
     saveHandler w r title fs = (w ++ [http.Errored (Error err) 500], fs) ∧
     fs' = fs ∧
     http.StatusCode (saveHandler [] r title fs).1 = Some 500%Z).
Proof.
  intros p. split.
  - intros fs' H. unfold saveHandler. fold p. by rewrite H.
  - intros fs' err H.
    assert (fs' = fs) as ->.
    { unfold save in H. destruct (os.WriteFile _ _ _ _) as [fs1 [e|]] eqn:E; [|done].
      apply WriteFile_Some_err in E as [-> _]. by injection H as <- _. }
    unfold saveHandler. fold p. by rewrite H.
Qed.

Lemma save_handler_cases_witness :
  saveHandler [] (http.mkRequest "POST" "/save/test" [] [("body", "hi")]) "test" fs_empty
  = ([http.Errored "open data/test.txt: no such file or directory" 500], fs_empty).
Proof.
  refine (proj1 (proj2 (save_handler_cases []
            (http.mkRequest "POST" "/save/test" [] [("body", "hi")]) "test" fs_empty)
            fs_empty (PathErr (os.mkPathError "open" "data/test.txt" os.ENOENT)) _)).
  vm_compute. reflexivity.
Defined.

(** ** Start-up *)

Lemma ParseFiles_two Parse fs :
  template.ParseFiles Parse ["tmpl/edit.html"; "tmpl/view.html"] fs =
    match os.ReadFile "tmpl/edit.html" fs with
    | inr e => inr (PathErr e)
    | inl be =>
        match Parse "edit.html" be with
        | inr msg => inr (TemplateErr msg)
        | inl te =>
            match os.ReadFile "tmpl/view.html" fs with
            | inr e => inr (PathErr e)
            | inl bv =>
                match Parse "view.html" bv with
                | inr msg => inr (TemplateErr msg)
                | inl tv => inl (<["view.html" := tv]> (<["edit.html" := te]> ∅))
                end
            end
        end
    end.
Proof. reflexivity. Qed.

(** C9.  If one of the two template files, [tmpl/edit.html] and
    [tmpl/view.html], cannot be read or does not parse, the process aborts
    while it initialises [templates] and never gets to serve.  When it
    does serve, both files were read and parsed, and the template set its
    handlers use holds both templates. *)
Theorem broken_template_aborts (Parse : string → list byte → Template + string) (fs : os.FS) :
  (¬ template_loads Parse fs "tmpl/edit.html" ∨ ¬ template_loads Parse fs "tmpl/view.html" →
   ∃ e, main Parse fs = Aborted e) ∧
  (∀ h, main Parse fs = Serving h →
     template_loads Parse fs "tmpl/edit.html" ∧
     template_loads Parse fs "tmpl/view.html" ∧
     ∃ (templates : gmap string Template) (te tv : Template),
       h = http.ServeHTTP (DefaultServeMux templates) ∧
       templates !! "edit.html" = Some te ∧
       templates !! "view.html" = Some tv).
Proof.
  unfold main, template_loads. rewrite ParseFiles_two.
  change (os.Base "tmpl/edit.html") with "edit.html".
  change (os.Base "tmpl/view.html") with "view.html".
  destruct (os.ReadFile "tmpl/edit.html" fs) as [be|e1]; [|split; [eauto|done]].
  destruct (Parse "edit.html" be) as [te|m1] eqn:Pe; [|split; [eauto|done]].
  destruct (os.ReadFile "tmpl/view.html" fs) as [bv|e2]; [|split; [eauto|done]].
  destruct (Parse "view.html" bv) as [tv|m2] eqn:Pv; [|split; [eauto|done]].
  cbn [template.Must]. split.
  - intros [H|H]; exfalso; apply H; eauto.
  - intros h [= <-]. split; [eauto|]. split; [eauto|].
    eexists _, te, tv. split; [reflexivity|]. split.
    + by rewrite lookup_insert_ne, lookup_insert_eq.
    + by rewrite lookup_insert_eq.
Qed.

Lemma broken_template_aborts_witness :
  ¬ template_loads Parse_plain fs_empty "tmpl/edit.html" ∧
  ∃ e, main Parse_plain fs_empty = Aborted e.
Proof.
  assert (¬ template_loads Parse_plain fs_empty "tmpl/edit.html") as H.
  { intros (text & tm & Hr & _). vm_compute in Hr. discriminate Hr. }
  split; [exact H|].
  exact (proj1 (broken_template_aborts Parse_plain fs_empty) (or_introl H)).
Defined.

Example start_fresh :
  main Parse_plain fs_fresh = Serving (http.ServeHTTP (DefaultServeMux templates_plain)).
Proof. reflexivity. Qed.

Example start_missing_view :
  main Parse_plain
    (os.mkFS {["tmpl/edit.html" := os.mkFile (list_byte_of_string "edit:") 0x1a4]} {["tmpl"]})
  = Aborted (PathErr (os.mkPathError "open" "tmpl/view.html" os.ENOENT)).
Proof. vm_compute. reflexivity. Qed.

(** ** The route table *)

Lemma valid_title_route verb title :
  verb = "view" ∨ verb = "edit" ∨ verb = "save" →
  valid_title title →
  route ("/" +:+ verb +:+ "/" +:+ title) = Some (verb, title).
Proof. intros Hv Ht. by apply route_Some. Qed.

Lemma prefix_app p s : String.prefix p (p +:+ s) = true.
Proof.
  induction p as [|a p IH]; simpl; [by destruct s|].
  by destruct (ascii_dec a a).
Qed.

Lemma pattern_matches_subtree pat s :
  http.is_subtree pat = true → http.pattern_matches pat (pat +:+ s) = true.
Proof. intros H. unfold http.pattern_matches. by rewrite H, prefix_app. Qed.

Lemma lookup_view templates title :
  http.lookup (DefaultServeMux templates) ("/view/" +:+ title)
  = Some ("/view/", makeHandler (viewHandler templates)).
Proof.
  unfold DefaultServeMux, http.HandleFunc. cbn [app http.lookup].
  by rewrite (pattern_matches_subtree "/view/").
Qed.

Lemma lookup_edit templates title :
  http.lookup (DefaultServeMux templates) ("/edit/" +:+ title)
  = Some ("/edit/", makeHandler (editHandler templates)).
Proof.
  unfold DefaultServeMux, http.HandleFunc. cbn [app http.lookup].
  by rewrite (pattern_matches_subtree "/edit/").
Qed.


Lemma serve_view templates w (r : http.Request) fs title :
  valid_title title →
  http.URL_Path r = "/view/" +:+ title →
  http.ServeHTTP (DefaultServeMux templates) w r fs = viewHandler templates w r title fs.
Proof.
  intros Ht Hp. unfold http.ServeHTTP. rewrite Hp.
  rewrite lookup_view.
  apply makeHandler_accepts with "view". rewrite Hp.
  apply (valid_title_route "view"); auto.
Qed.

Lemma serve_edit templates w (r : http.Request) fs title :
  valid_title title →
  http.URL_Path r = "/edit/" +:+ title →
  http.ServeHTTP (DefaultServeMux templates) w r fs = editHandler templates w r title fs.
Proof.
  intros Ht Hp. unfold http.ServeHTTP. rewrite Hp.
  rewrite lookup_edit.
  apply makeHandler_accepts with "edit". rewrite Hp.
  apply (valid_title_route "edit"); auto.
Qed.




Example get_save_persists :
  os.data <$>
    os.files (http.ServeHTTP (DefaultServeMux templates_plain) []
                (http.mkRequest "GET" "/save/test" [("body", "by query")] []) fs_fresh).2
      !! "data/test.txt"
  = Some (list_byte_of_string "by query").
Proof. vm_compute. reflexivity. Qed.

Example delete_view_served :
  (http.ServeHTTP (DefaultServeMux templates_plain) []
     (http.mkRequest "DELETE" "/view/alice" [] []) fs_fresh).1
  = [http.Redirected "/edit/alice" 302].
Proof. vm_compute. reflexivity. Qed.

(** * Further properties of the program *)

(** ** The router, the other way round *)

(** X1.  Every path of the form ["/" + verb + "/" + title], with the verb
    one of view, edit, save and the title one or more ASCII letters and
    digits, is accepted: the submatch is the path, the verb and the
    title, and [makeHandler] runs the function it wraps on exactly that
    title.  The wrapper does not compare the verb with the function it
    wraps: any of the three verbs lets any wrapped function run. *)
Theorem shaped_path_is_accepted (r : http.Request) (verb title : string) :
  verb = "view" ∨ verb = "edit" ∨ verb = "save" →
  valid_title title →
  http.URL_Path r = "/" +:+ verb +:+ "/" +:+ title →
  FindStringSubmatch validPath (http.URL_Path r) = Some [http.URL_Path r; verb; title] ∧
  ∀ fn w fs, makeHandler fn w r fs = fn w r title fs.
Proof.
  intros Hv Ht Hp.
  assert (route (http.URL_Path r) = Some (verb, title)) as Hr by (by apply route_Some).
  split.
  - by rewrite FindStringSubmatch_validPath, Hr.
  - intros fn w fs. by apply makeHandler_accepts with verb.
Qed.

Lemma shaped_path_is_accepted_witness :
  valid_title "Page1" ∧
  ∀ w fs,
    makeHandler (viewHandler templates_plain) w
      (http.mkRequest "GET" "/save/Page1" [] []) fs
    = viewHandler templates_plain w (http.mkRequest "GET" "/save/Page1" [] []) "Page1" fs.
Proof.
  assert (valid_title "Page1") as Hv by (split; [discriminate|vm_compute; reflexivity]).
  split; [exact Hv|].
  intros w fs.
  exact (proj2 (shaped_path_is_accepted (http.mkRequest "GET" "/save/Page1" [] [])
                  "save" "Page1" (or_intror (or_intror eq_refl)) Hv eq_refl)
           (viewHandler templates_plain) w fs).
Defined.

(** X2.  A submatch of [validPath] always has three elements, so the
    index [m[2]] in [makeHandler] is in range; element 0 is the whole
    path, element 1 is one of view, edit, save, and the path is rebuilt
    from the parts as ["/" + m[1] + "/" + m[2]]. *)
Theorem submatch_rebuilds_path (path : string) (m : list string) :
  FindStringSubmatch validPath path = Some m →
  length m = 3 ∧
  nth 0 m "" = path ∧
  (nth 1 m "" = "view" ∨ nth 1 m "" = "edit" ∨ nth 1 m "" = "save") ∧
  path = "/" +:+ nth 1 m "" +:+ "/" +:+ nth 2 m "".
Proof.
  rewrite FindStringSubmatch_validPath.
  destruct (route path) as [[verb title]|] eqn:E; [|done].
  intros [= <-]. apply route_Some in E as (Hv & _ & Hp). by cbn [nth length].
Qed.

Lemma submatch_rebuilds_path_witness :
  FindStringSubmatch validPath "/edit/a1B" = Some ["/edit/a1B"; "edit"; "a1B"] ∧
  length ["/edit/a1B"; "edit"; "a1B"] = 3.
Proof.
  assert (FindStringSubmatch validPath "/edit/a1B" = Some ["/edit/a1B"; "edit"; "a1B"]) as H
    by (vm_compute; reflexivity).
  split; [exact H|].
  exact (proj1 (submatch_rebuilds_path _ _ H)).
Defined.

(** ** What a request can change *)

(** X3.  Whatever the request, the wrapped save handler leaves the
    directories as they are and changes at most one file: a file that
    differs afterwards is named ["data/" + title + ".txt"] for the title
    of the request's path, which is one or more ASCII letters and digits,
    so the file lies below [data]. *)
Theorem save_route_touches_one_file (w w' : http.ResponseWriter) (r : http.Request)
    (fs fs' : os.FS) :
  makeHandler saveHandler w r fs = (w', fs') →
  os.dirs fs' = os.dirs fs ∧
  ∀ name, os.files fs' !! name ≠ os.files fs !! name →
    ∃ verb title,
      http.URL_Path r = "/" +:+ verb +:+ "/" +:+ title ∧
      valid_title title ∧
      name = "data/" +:+ (title +:+ ".txt") ∧
      stays_under "data" name.
Proof.
  intros H.
  destruct (route (http.URL_Path r)) as [[verb title]|] eqn:E.
  - rewrite (makeHandler_accepts _ _ _ _ verb title E) in H.
    apply route_Some in E as (Hv & Ht & Hp).
    unfold saveHandler in H.
    destruct (save _ fs) as [fs1 [err|]] eqn:Hs.
    + injection H as _ <-.
      unfold save in Hs. destruct (os.WriteFile _ _ _ _) as [fs2 [e|]] eqn:Hw; [|done].
      apply WriteFile_Some_err in Hw as [-> _]. injection Hs as -> _.
      split; [done|]. by intros name Hne.
    + injection H as _ <-.
      apply save_Some_None, WriteFile_Some_None in Hs as (_ & _ & ->).
      cbn [Title Body os.dirs os.files]. split; [done|].
      intros name Hne.
      destruct (decide ("data/" +:+ (title +:+ ".txt") = name)) as [<-|Hd].
      * exists verb, title. repeat split; try done; try apply Ht.
        exists [title +:+ ".txt"]. split; [done|]. by apply valid_title_resolve.
      * by rewrite lookup_insert_ne in Hne.
  - rewrite makeHandler_rejects in H by done. injection H as _ <-.
    split; [done|]. by intros name Hne.
Qed.

Lemma save_route_touches_one_file_witness :
  os.dirs (makeHandler saveHandler []
             (http.mkRequest "POST" "/save/../../etc/passwd" [] [("body", "x")]) fs_fresh).2
  = os.dirs fs_fresh.
Proof.
  refine (proj1 (save_route_touches_one_file []
            (makeHandler saveHandler []
               (http.mkRequest "POST" "/save/../../etc/passwd" [] [("body", "x")]) fs_fresh).1
            (http.mkRequest "POST" "/save/../../etc/passwd" [] [("body", "x")])
            fs_fresh _ _)).
  vm_compute. reflexivity.
Defined.

(** ** Pages do not interfere *)

Lemma string_app_length (p s : string) :
  String.length (p +:+ s) = String.length p + String.length s.
Proof. induction p as [|c p IH]; simpl; [done|]. by rewrite IH. Qed.

Lemma string_app_inv_tail (a b s : string) : a +:+ s = b +:+ s → a = b.
Proof.
  revert b; induction a as [|x a IH]; intros [|y b] H; simpl in H.
  - done.
  - apply (f_equal String.length) in H. simpl in H.
    rewrite string_app_length in H. lia.
  - apply (f_equal String.length) in H. simpl in H.
    rewrite string_app_length in H. lia.
  - injection H as -> H. by rewrite (IH _ H).
Qed.

Lemma page_name_inj (t1 t2 : string) :
  "data/" +:+ (t1 +:+ ".txt") = "data/" +:+ (t2 +:+ ".txt") → t1 = t2.
Proof. intros [= H]. by apply string_app_inv_tail in H. Qed.

(** X4.  Saving a page leaves every other page as it was: for two
    different titles of ASCII letters and digits, [loadPage] of the second
    gives the same result after a [save] under the first as before it. *)
Theorem save_leaves_other_titles (t1 t2 : string) (b : list byte) (fs fs' : os.FS) :
  valid_title t1 → valid_title t2 → t1 ≠ t2 →
  save (mkPage t1 b) fs = (fs', None) →
  loadPage t2 fs' = loadPage t2 fs.
Proof.
  intros _ _ Hne (_ & _ & ->)%save_Some_None%WriteFile_Some_None.
  cbn [Title Body]. unfold loadPage, os.ReadFile. cbn [os.dirs os.files].
  rewrite lookup_insert_ne; [done|].
  rewrite load_name_save_name. intros H. by apply page_name_inj in H.
Qed.

Lemma save_leaves_other_titles_witness :
  valid_title "a" ∧ valid_title "A" ∧
  loadPage "A" (save (mkPage "a" (list_byte_of_string "lower")) fs_fresh).1
  = loadPage "A" fs_fresh.
Proof.
  assert (valid_title "a") as H1 by (split; [discriminate|vm_compute; reflexivity]).
  assert (valid_title "A") as H2 by (split; [discriminate|vm_compute; reflexivity]).
  split; [exact H1|]. split; [exact H2|].
  refine (save_leaves_other_titles "a" "A" (list_byte_of_string "lower") fs_fresh _ H1 H2 _ _).
  - discriminate.
  - vm_compute. reflexivity.
Defined.

(** X5.  Saving back a page as [loadPage] returned it changes nothing:
    when the [save] returns no error, the files and directories are
    exactly those from before. *)
Theorem load_then_save_is_identity (title : string) (p : Page) (fs fs' : os.FS) :
  loadPage title fs = inl p →
  save p fs = (fs', None) →
  fs' = fs.
Proof.
  unfold loadPage, os.ReadFile. rewrite load_name_save_name.
  case_bool_decide; [done|].
  destruct (os.files fs !! _) as [f|] eqn:Hf; [|done].
  intros [= <-] (_ & _ & ->)%save_Some_None%WriteFile_Some_None.
  cbn [Title Body]. unfold written. rewrite Hf.
  destruct fs as [files dirs], f as [d pm]. cbn [os.files os.dirs os.data os.perm] in *.
  f_equal. by apply insert_id.
Qed.

Lemma load_then_save_is_identity_witness :
  (save (mkPage "t" (list_byte_of_string "x"))
     (save (mkPage "t" (list_byte_of_string "x")) fs_fresh).1).1
  = (save (mkPage "t" (list_byte_of_string "x")) fs_fresh).1.
Proof.
  refine (load_then_save_is_identity "t" (mkPage "t" (list_byte_of_string "x"))
            (save (mkPage "t" (list_byte_of_string "x")) fs_fresh).1 _ _ _).
  - vm_compute. reflexivity.
  - vm_compute. reflexivity.
Defined.

(** ** Templates after start-up *)

(** X6.  The names [renderTemplate] asks for are the names [ParseFiles]
    registers: with the template set that [ParseFiles] returns for
    [tmpl/edit.html] and [tmpl/view.html], rendering "view" or "edit"
    always executes the template parsed from the file of that name, never
    ends in an "is undefined" error, and answers with what the template
    wrote, followed by [http.Error] with status 500 and the template's
    message exactly when its execution failed. *)
Theorem started_templates_are_found (Parse : string → list byte → Template + string)
    (fs : os.FS) (templates : gmap string Template) (tmpl : string) :
  template.ParseFiles Parse ["tmpl/edit.html"; "tmpl/view.html"] fs = inl templates →
  tmpl = "view" ∨ tmpl = "edit" →
  ∃ (text : list byte) (tm : Template),
    os.ReadFile ("tmpl/" +:+ tmpl +:+ ".html") fs = inl text ∧
    Parse (tmpl +:+ ".html") text = inl tm ∧
    ∀ w p,
      renderTemplate templates w tmpl p =
        w ++ http.Written (tm p).1 ::
          match (tm p).2 with
          | Some msg => [http.Errored msg 500]
          | None => []
          end.
Proof.
  rewrite ParseFiles_two.
  destruct (os.ReadFile "tmpl/edit.html" fs) as [be|e1] eqn:Re; [|done].
  destruct (Parse "edit.html" be) as [te|m1] eqn:Pe; [|done].
  destruct (os.ReadFile "tmpl/view.html" fs) as [bv|e2] eqn:Rv; [|done].
  destruct (Parse "view.html" bv) as [tv|m2] eqn:Pv; [|done].
  intros [= <-] [-> | ->].
  - exists bv, tv. repeat split; try done.
    intros w p. apply renderTemplate_found. by rewrite lookup_insert_eq.
  - exists be, te. repeat split; try done.
    intros w p. apply renderTemplate_found.
    by rewrite lookup_insert_ne, lookup_insert_eq.
Qed.

Lemma started_templates_are_found_witness :
  renderTemplate templates_plain [] "view" (mkPage "t" (list_byte_of_string "B"))
  = [http.Written (list_byte_of_string "view:B")].
Proof.
  destruct (started_templates_are_found Parse_plain fs_fresh templates_plain "view")
    as (text & tm & Hr & Hp & Hw).
  - vm_compute. reflexivity.
  - left. reflexivity.
  - rewrite Hw. vm_compute in Hr. injection Hr as <-.
    vm_compute in Hp. injection Hp as <-. vm_compute. reflexivity.
Defined.

(** X7.  When both template files can be read and parse, the process does
    not abort: it serves with the route table of [main] over a template
    set that holds, under [edit.html] and [view.html], the templates
    parsed from the two files. *)
Theorem loaded_templates_serve (Parse : string → list byte → Template + string)
    (fs : os.FS) (be bv : list byte) (te tv : Template) :
  os.ReadFile "tmpl/edit.html" fs = inl be → Parse "edit.html" be = inl te →
  os.ReadFile "tmpl/view.html" fs = inl bv → Parse "view.html" bv = inl tv →
  ∃ templates : gmap string Template,
    main Parse fs = Serving (http.ServeHTTP (DefaultServeMux templates)) ∧
    templates !! "edit.html" = Some te ∧
    templates !! "view.html" = Some tv.
Proof.
  intros Re Pe Rv Pv. unfold main. rewrite ParseFiles_two, Re, Pe, Rv, Pv.
  eexists. split; [reflexivity|]. split.
  - by rewrite lookup_insert_ne, lookup_insert_eq.
  - by rewrite lookup_insert_eq.
Qed.

Lemma loaded_templates_serve_witness :
  ∃ templates : gmap string Template,
    main Parse_plain fs_fresh = Serving (http.ServeHTTP (DefaultServeMux templates)).
Proof.
  destruct (loaded_templates_serve Parse_plain fs_fresh
              (list_byte_of_string "edit:") (list_byte_of_string "view:")
              (λ p, (list_byte_of_string "edit:" ++ Body p, None))
              (λ p, (list_byte_of_string "view:" ++ Body p, None)))
    as (templates & H & _); try (vm_compute; reflexivity).
  exists templates. exact H.
Defined.

(** ** Following the redirects *)



(** X9.  The redirect of a view of a missing page leads to an empty edit
    form, and neither request creates the page.  For a title of ASCII
    letters and digits with no file stored: a request for
    [/view/<title>] is answered with one redirect and leaves the files as
    they were; a request for the redirect's target, by any method, is
    answered by the edit handler rendering the page with that title and
    an empty body, and again leaves the files as they were. *)
Theorem view_redirect_shows_empty_form (templates : gmap string Template)
    (r : http.Request) (title : string) (fs : os.FS) :
  valid_title title →
  http.URL_Path r = "/view/" +:+ title →
  os.files fs !! (("data/" +:+ title) +:+ ".txt") = None →
  ∃ target,
    http.ServeHTTP (DefaultServeMux templates) [] r fs
      = ([http.Redirected target 302], fs) ∧
    ∀ method query form,
      http.ServeHTTP (DefaultServeMux templates) []
        (http.mkRequest method target query form) fs
      = (renderTemplate templates [] "edit" (mkPage title []), fs).
Proof.
  intros Ht Hp Hf. destruct (loadPage_absent _ _ Hf) as [err Hl].
  exists ("/edit/" +:+ title). split.
  - rewrite (serve_view _ _ _ _ title) by done.
    unfold viewHandler. by rewrite Hl.
  - intros method query form.
    rewrite (serve_edit _ _ _ _ title) by done.
    unfold editHandler. by rewrite Hl.
Qed.

Lemma view_redirect_shows_empty_form_witness :
  ∃ target,
    http.ServeHTTP (DefaultServeMux templates_plain) []
      (http.mkRequest "GET" "/view/alice" [] []) fs_fresh
      = ([http.Redirected target 302], fs_fresh) ∧
    http.ServeHTTP (DefaultServeMux templates_plain) []
      (http.mkRequest "GET" target [] []) fs_fresh
    = ([http.Written (list_byte_of_string "edit:")], fs_fresh).
Proof.
  destruct (view_redirect_shows_empty_form templates_plain
              (http.mkRequest "GET" "/view/alice" [] []) "alice" fs_fresh)
    as (target & H1 & H2).
  - split; [discriminate|vm_compute; reflexivity].
  - reflexivity.
  - vm_compute. reflexivity.
  - exists target. split; [exact H1|].
    rewrite H2. vm_compute. reflexivity.
Defined.

(** X10.  After a successful save the edit form comes back filled: the
    edit handler renders the page with the saved title and body. *)
Theorem saved_page_is_edited (templates : gmap string Template)
    (w : http.ResponseWriter) (r : http.Request) (title : string) (B : list byte)
    (fs fs' : os.FS) :
  valid_title title →
  save (mkPage title B) fs = (fs', None) →
  editHandler templates w r title fs' = (renderTemplate templates w "edit" (mkPage title B), fs').
Proof.
  intros _ Hs. unfold editHandler. by rewrite (loadPage_after_save _ _ _ _ Hs).
Qed.

Lemma saved_page_is_edited_witness :
  valid_title "test" ∧
  editHandler templates_plain [] (http.mkRequest "GET" "/edit/test" [] []) "test"
    (save (mkPage "test" (list_byte_of_string "draft")) fs_fresh).1
  = ([http.Written (list_byte_of_string "edit:draft")],
     (save (mkPage "test" (list_byte_of_string "draft")) fs_fresh).1).
Proof.
  assert (valid_title "test") as Hv by (split; [discriminate|vm_compute; reflexivity]).
  split; [exact Hv|].
  rewrite (saved_page_is_edited templates_plain [] (http.mkRequest "GET" "/edit/test" [] [])
             "test" (list_byte_of_string "draft") fs_fresh
             (save (mkPage "test" (list_byte_of_string "draft")) fs_fresh).1 Hv).
  - vm_compute. reflexivity.
  - vm_compute. reflexivity.
Defined.

(** ** Edge cases of the save handler *)






(** ** Every request is answered *)

Lemma renderTemplate_appends (templates : gmap string Template) w tmpl p :
  ∃ evs, renderTemplate templates w tmpl p = w ++ evs ∧ 1 ≤ length evs ≤ 2.
Proof.
  destruct (templates !! (tmpl +:+ ".html")) as [tm|] eqn:E.
  - rewrite (renderTemplate_found _ _ _ _ tm E).
    eexists. split; [reflexivity|]. destruct ((tm p).2); simpl; lia.
  - rewrite (renderTemplate_missing _ _ _ _ E).
    eexists. split; [reflexivity|]. simpl; lia.
Qed.

(** X13.  Each of the three wrapped handlers answers every request and
    only adds to the response: whatever the path, the method and the
    files, what was done to the response before is kept and one or two
    things are added (a redirect, an error, or template output with
    possibly an error after it).  The wrapped view and edit handlers never
    change the files. *)
Theorem wrapped_handlers_answer (templates : gmap string Template)
    (w : http.ResponseWriter) (r : http.Request) (fs : os.FS) :
  (∃ evs, makeHandler (viewHandler templates) w r fs = (w ++ evs, fs) ∧
          1 ≤ length evs ≤ 2) ∧
  (∃ evs, makeHandler (editHandler templates) w r fs = (w ++ evs, fs) ∧
          1 ≤ length evs ≤ 2) ∧
  (∃ evs fs', makeHandler saveHandler w r fs = (w ++ evs, fs') ∧ length evs = 1).
Proof.
  unfold makeHandler. rewrite FindStringSubmatch_validPath.
  destruct (route (http.URL_Path r)) as [[verb title]|]; cbn [nth].
  - split; [|split].
    + unfold viewHandler. destruct (loadPage title fs) as [p|err].
      * destruct (renderTemplate_appends templates w "view" p) as (evs & -> & Hl). eauto.
      * eexists. split; [reflexivity|]. simpl; lia.
    + unfold editHandler.
      destruct (renderTemplate_appends templates w "edit"
                  (match loadPage title fs with inl p => p | inr _ => mkPage title [] end))
        as (evs & -> & Hl). eauto.
    + unfold saveHandler. destruct (save _ fs) as [fs' [err|]]; eauto.
  - split; [|split].
    + eexists. split; [reflexivity|simpl; lia].
    + eexists. split; [reflexivity|simpl; lia].
    + eexists _, _. split; reflexivity.
Qed.
